(** * Verification of the token-protected routes of express-ts-api-template

    The development embeds the first-party code of the template:
    - [errorHandler]   (middleware/error.middleware.ts),
    - [requireAuth]    (middleware/auth.middleware.ts),
    - the two protected handlers of routes/user.routes.ts,
    over a small model of what Express, Node and Prisma give them: a
    request with its [authorization] header, a response with a status code
    and a JSON body, the session table behind [prisma.session.findUnique],
    the console and the wall clock. *)

From Stdlib Require Import ZArith String Ascii List Lia.
From stdpp Require Import base option list gmap strings.

Open Scope Z_scope.
Open Scope string_scope.

(** ** JavaScript values used by the code *)

(** A thrown [Error]: its [name] and its [message]. *)
Record JsError := mkError { err_name : string; err_message : string }.

(** [Error.prototype.toString], which the template literal [`${error}`]
    calls on the caught value. *)
Definition error_toString (e : JsError) : string :=
  if String.eqb (err_name e) "" then err_message e
  else if String.eqb (err_message e) "" then err_name e
  else err_name e +:+ ": " +:+ err_message e.

(** JSON bodies built by [res.json]: the code only builds objects whose
    leaves are strings. Fields are kept in insertion order. *)
#[warnings="-register-all"]
Inductive Json :=
| JStr (s : string)
| JObj (fields : list (string * Json)).

Definition json_keys (j : Json) : list string :=
  match j with
  | JStr _ => []
  | JObj fs => map fst fs
  end.

Fixpoint assoc (k : string) (fs : list (string * Json)) : option Json :=
  match fs with
  | [] => None
  | (k', v) :: fs' => if String.eqb k k' then Some v else assoc k fs'
  end.

Definition json_field (k : string) (j : Json) : option Json :=
  match j with
  | JStr _ => None
  | JObj fs => assoc k fs
  end.

(** [String.prototype.startsWith]: is [p] a prefix of [s]? *)
Fixpoint startsWith (s p : string) {struct p} : bool :=
  match p with
  | EmptyString => true
  | String c p' =>
      match s with
      | EmptyString => false
      | String d s' => if Ascii.eqb c d then startsWith s' p' else false
      end
  end.

(** [String.prototype.split] with a one-character separator: every
    occurrence of the separator cuts, so two separators in a row give an
    empty piece, and the empty string gives one empty piece. *)
Fixpoint split (sep : ascii) (s : string) : list string :=
  match s with
  | EmptyString => [EmptyString]
  | String c s' =>
      if Ascii.eqb c sep then EmptyString :: split sep s'
      else match split sep s' with
           | [] => [String c EmptyString]
           | piece :: pieces => String c piece :: pieces
           end
  end.

(** ** Data model *)

(** A row of the user table. The Prisma schema is not part of the sources;
    the code reads [id], [email] and [name], and whatever other columns
    the row has are carried in [user_columns]. *)
Record User := mkUser {
  user_id : string;
  user_email : string;
  user_name : string;
  user_columns : list (string * Json)
}.

(** A session as [findUnique] with [include: { user: true }] returns it:
    the unique [token], [expiresAt] in milliseconds since the epoch, and
    the owning user. *)
Record Session := mkSession {
  token : string;
  expiresAt : Z;
  user : User;
  session_columns : list (string * Json)
}.

(** The object assigned to [req.user]. *)
Record Identity := mkIdentity {
  id : string;
  email : string;
  name : string
}.

Definition identity_json (u : Identity) : Json :=
  JObj [("id", JStr (id u)); ("email", JStr (email u)); ("name", JStr (name u))].

Record Request := mkRequest {
  authorization : option string;   (* req.headers.authorization *)
  req_user : option Identity       (* req.user *)
}.

(** An Express response: the status code starts at 200, [body] is [None]
    until something is sent. *)
Record Response := mkResponse {
  statusCode : Z;
  body : option Json
}.

Definition fresh_response : Response := mkResponse 200 None.

(** ** The state a request runs in *)

Record State := mkState {
  sessions : gmap string Session;       (* the session table *)
  db_fault : option JsError;            (* the datastore is failing with this error *)
  clock : Z;                            (* what [new Date()] reads *)
  db_queries : list (option string);    (* tokens [findUnique] was called with *)
  console : list string;                (* lines written by [console.error] *)
  req : Request;
  res : Response;
  next_called : bool                    (* the current layer called [next()] *)
}.

Inductive Outcome (A : Type) :=
| Returned (a : A)
| Thrown (e : JsError).
Arguments Returned {A} a.
Arguments Thrown {A} e.

(** Computations that read and write the state and may throw. *)
Definition M (A : Type) : Type := State -> Outcome A * State.

#[global] Instance M_ret : MRet M := fun A a st => (Returned a, st).
#[global] Instance M_bind : MBind M := fun A B f m st =>
  match m st with
  | (Returned a, st') => f a st'
  | (Thrown e, st') => (Thrown e, st')
  end.

(** [try { m } catch (error) { h error }] *)
Definition try_catch {A} (m : M A) (h : JsError -> M A) : M A := fun st =>
  match m st with
  | (Returned a, st') => (Returned a, st')
  | (Thrown e, st') => h e st'
  end.

Definition gets {A} (f : State -> A) : M A := fun st => (Returned (f st), st).
Definition modify (f : State -> State) : M unit := fun st => (Returned tt, f st).

Definition set_res (r : Response) (st : State) : State :=
  mkState (sessions st) (db_fault st) (clock st) (db_queries st) (console st)
          (req st) r (next_called st).
Definition set_req (r : Request) (st : State) : State :=
  mkState (sessions st) (db_fault st) (clock st) (db_queries st) (console st)
          r (res st) (next_called st).
Definition set_console (c : list string) (st : State) : State :=
  mkState (sessions st) (db_fault st) (clock st) (db_queries st) c
          (req st) (res st) (next_called st).
Definition set_db_queries (q : list (option string)) (st : State) : State :=
  mkState (sessions st) (db_fault st) (clock st) q (console st)
          (req st) (res st) (next_called st).
Definition set_next_called (b : bool) (st : State) : State :=
  mkState (sessions st) (db_fault st) (clock st) (db_queries st) (console st)
          (req st) (res st) b.

(** *** Express, Node and Prisma operations *)

(** [res.status(code)] *)
Definition res_status (code : Z) : M unit :=
  modify (fun st => set_res (mkResponse code (body (res st))) st).

(** [res.json(j)] *)
Definition res_json (j : Json) : M unit :=
  modify (fun st => set_res (mkResponse (statusCode (res st)) (Some j)) st).

(** [console.error(line)] *)
Definition console_error (line : string) : M unit :=
  modify (fun st => set_console (console st ++ [line]) st).

(** [next()] *)
Definition next : M unit := modify (set_next_called true).

(** [new Date()] *)
Definition new_Date : M Z := gets clock.

(** The error Prisma raises when [where] holds no value for the unique
    field ([token] undefined). *)
Definition validation_error : JsError :=
  mkError "PrismaClientValidationError"
          "Argument `where` of type SessionWhereUniqueInput needs at least one of `id` or `token` arguments.".

(** [prisma.session.findUnique({ where: { token }, include: { user: true } })]:
    a read of the session table by exact token; it throws when the
    datastore is failing. *)
Definition findUnique (tok : option string) : M (option Session) := fun st =>
  let st' := set_db_queries (db_queries st ++ [tok]) st in
  match tok with
  | None => (Thrown validation_error, st')
  | Some t =>
      match db_fault st with
      | Some e => (Thrown e, st')
      | None => (Returned (sessions st !! t), st')
      end
  end.

(** ** middleware/error.middleware.ts *)

Definition errorHandler (err : JsError) : M unit :=
  console_error ("Error: " +:+ err_message err);;
  res_status 500;;
  res_json (JObj [("error", JStr "Internal server error");
                  ("message", JStr (err_message err))]).

(** ** middleware/auth.middleware.ts *)

(** [!authHeader || !authHeader.startsWith("Bearer ")]: an absent header
    and the empty string are both falsy. *)
Definition no_bearer (authHeader : option string) : bool :=
  match authHeader with
  | None => true
  | Some h => String.eqb h "" || negb (startsWith h "Bearer ")
  end.

(** [authHeader.split(" ")[1]] *)
Definition bearer_token (authHeader : option string) : option string :=
  match authHeader with
  | None => None
  | Some h => split " " h !! 1%nat
  end.

Definition identity_of (s : Session) : Identity :=
  {| id := user_id (user s);
     email := user_email (user s);
     name := user_name (user s) |}.

Definition requireAuth : M unit :=
  try_catch
    (authHeader ← gets (fun st => authorization (req st));
     if no_bearer authHeader then
       res_status 401;;
       res_json (JObj [("error", JStr "Unauthorized: No Token provided")])
     else
       let token := bearer_token authHeader in
       session ← findUnique token;
       match session with
       | None =>
           res_status 401;;
           res_json (JObj [("error", JStr "Unauthorized: Invalid or expired token")])
       | Some s =>
           now ← new_Date;
           if (expiresAt s <? now)%Z then
             res_status 401;;
             res_json (JObj [("error", JStr "Unauthorized: Invalid or expired token")])
           else
             modify (fun st =>
               set_req (mkRequest (authorization (req st)) (Some (identity_of s))) st);;
             next
       end)
    (fun error =>
       console_error ("Auth middleware error: " +:+ error_toString error);;
       res_status 500;;
       res_json (JObj [("error", JStr "Internal server error during auth")])).

(** ** routes/user.routes.ts *)

(** [{ message, user: req.user }]: a field whose value is [undefined] is
    left out by JSON serialisation. *)
Definition with_user (message : string) (u : option Identity) : Json :=
  JObj (("message", JStr message) ::
        match u with
        | Some i => [("user", identity_json i)]
        | None => []
        end).

Definition profile : M unit :=
  u ← gets (fun st => req_user (req st));
  res_json (with_user "This is a protected route" u).

Definition dashboard : M unit :=
  u ← gets (fun st => req_user (req st));
  res_json (with_user "Welcome to your dashboard!" u).

(** [router.get(path, requireAuth, handler)]: the layers registered for a
    method and a path of the router, for the paths as they are written in
    the source. *)
Definition userRoutes (method path : string) : option (list (M unit)) :=
  if negb (String.eqb method "GET") then None
  else if String.eqb path "/profile" then Some [requireAuth; profile]
  else if String.eqb path "/dashboard" then Some [requireAuth; dashboard]
  else None.

(** Express runs the layers of a route in order; a layer hands over to the
    one after it by calling [next()], and the chain stops at a layer that
    does not. *)
Fixpoint run_layers (layers : list (M unit)) : M unit :=
  match layers with
  | [] => mret tt
  | layer :: rest =>
      modify (set_next_called false);;
      layer;;
      called ← gets next_called;
      if (called : bool) then run_layers rest else mret tt
  end.

(** A request as it reaches the router: nothing attached, nothing sent. *)
Definition incoming (db : gmap string Session) (fault : option JsError)
    (now : Z) (authHeader : option string) : State :=
  {| sessions := db; db_fault := fault; clock := now;
     db_queries := []; console := [];
     req := mkRequest authHeader None;
     res := fresh_response;
     next_called := false |}.

(** ** Words of the specification *)

(** [String.prototype.slice(n)]: what is left of [s] after its first [n]
    characters. The specification's "substring after the scheme prefix"
    is [slice 7 authHeader]. *)
Fixpoint slice (n : nat) (s : string) : string :=
  match n, s with
  | O, _ => s
  | S n', String _ s' => slice n' s'
  | S _, EmptyString => EmptyString
  end.

Definition spec_token (authHeader : string) : string := slice 7 authHeader.

(** [String.prototype.includes] for one character. *)
Fixpoint includes (c : ascii) (s : string) : bool :=
  match s with
  | EmptyString => false
  | String d s' => Ascii.eqb d c || includes c s'
  end.

(** The part of [s] before the first occurrence of [sep]. *)
Fixpoint until_sep (sep : ascii) (s : string) : string :=
  match s with
  | EmptyString => EmptyString
  | String c s' => if Ascii.eqb c sep then EmptyString else String c (until_sep sep s')
  end.

(** Lower-casing of the Latin letters, to speak of a scheme written in
    another case. *)
Definition lower_ascii (c : ascii) : ascii :=
  let n := nat_of_ascii c in
  if (65 <=? n)%nat && (n <=? 90)%nat then ascii_of_nat (n + 32) else c.

Fixpoint toLowerCase (s : string) : string :=
  match s with
  | EmptyString => EmptyString
  | String c s' => String (lower_ascii c) (toLowerCase s')
  end.

(** ** The bodies the middleware sends *)

Definition no_token_body : Json :=
  JObj [("error", JStr "Unauthorized: No Token provided")].
Definition invalid_token_body : Json :=
  JObj [("error", JStr "Unauthorized: Invalid or expired token")].
Definition auth_failure_body : Json :=
  JObj [("error", JStr "Internal server error during auth")].

(** ** State after each way through [requireAuth] *)

Definition replied (code : Z) (j : Json) (st : State) : State :=
  set_res (mkResponse code (Some j)) st.
Definition queried (tok : option string) (st : State) : State :=
  set_db_queries (db_queries st ++ [tok]) st.
Definition logged (line : string) (st : State) : State :=
  set_console (console st ++ [line]) st.
Definition passed_on (i : Identity) (st : State) : State :=
  set_next_called true (set_req (mkRequest (authorization (req st)) (Some i)) st).

(** The outcome of [requireAuth] as a relation between the state before
    and the state after: one constructor per way through the code. *)
Inductive auth_result (st : State) : State -> Prop :=
| auth_no_token :
    no_bearer (authorization (req st)) = true ->
    auth_result st (replied 401 no_token_body st)
| auth_lookup_throws (t : string) (e : JsError) :
    no_bearer (authorization (req st)) = false ->
    bearer_token (authorization (req st)) = Some t ->
    db_fault st = Some e ->
    auth_result st
      (replied 500 auth_failure_body
         (logged ("Auth middleware error: " +:+ error_toString e)
            (queried (Some t) st)))
| auth_not_found (t : string) :
    no_bearer (authorization (req st)) = false ->
    bearer_token (authorization (req st)) = Some t ->
    db_fault st = None ->
    sessions st !! t = None ->
    auth_result st (replied 401 invalid_token_body (queried (Some t) st))
| auth_expired (t : string) (s : Session) :
    no_bearer (authorization (req st)) = false ->
    bearer_token (authorization (req st)) = Some t ->
    db_fault st = None ->
    sessions st !! t = Some s ->
    expiresAt s < clock st ->
    auth_result st (replied 401 invalid_token_body (queried (Some t) st))
| auth_passes (t : string) (s : Session) :
    no_bearer (authorization (req st)) = false ->
    bearer_token (authorization (req st)) = Some t ->
    db_fault st = None ->
    sessions st !! t = Some s ->
    clock st <= expiresAt s ->
    auth_result st (passed_on (identity_of s) (queried (Some t) st)).

(** ** Scenario data of the specification *)

Definition scenario_user : User := mkUser "u1" "a@b.com" "A" [].
Definition scenario_db (exp : Z) : gmap string Session :=
  {[ "xyz" := mkSession "xyz" exp scenario_user [] ]}.

(** One hour, in milliseconds. *)
Definition hour : Z := 3600000.

(** ** What a client and the next layer see of a state *)

Definition observable (st : State) : Response * option Identity * bool :=
  (res st, req_user (req st), next_called st).

(** A new request reaching a running server: Express gives it a request
    and a response of its own; the table, the clock, the console and the
    query log are those of the process. *)
Definition arrives (authHeader : option string) (st : State) : State :=
  set_next_called false
    (set_req (mkRequest authHeader None) (set_res fresh_response st)).

(** * Properties *)

(** ** Strings *)

Example split_header : split " " "Bearer abc123" = ["Bearer"; "abc123"].
Proof. reflexivity. Qed.

Example split_two_spaces : split " " "Bearer  abc" = ["Bearer"; ""; "abc"].
Proof. reflexivity. Qed.

Example split_no_separator : split " " "Bearer" = ["Bearer"].
Proof. reflexivity. Qed.

Example error_toString_named :
  error_toString (mkError "TypeError" "x is undefined") = "TypeError: x is undefined".
Proof. reflexivity. Qed.

Example upper_case_scheme : toLowerCase "BEARER " = "bearer ".
Proof. reflexivity. Qed.

Lemma startsWith_append (p rest : string) : startsWith (p +:+ rest) p = true.
Proof.
  induction p as [|c p IH]; simpl; [reflexivity|].
  now rewrite Ascii.eqb_refl.
Qed.

Lemma startsWith_inv (p s : string) :
  startsWith s p = true -> s = p +:+ slice (String.length p) s.
Proof.
  revert s; induction p as [|c p IH]; intros s H; simpl in *; [reflexivity|].
  destruct s as [|d s]; [discriminate|].
  destruct (Ascii.eqb_spec c d) as [->|]; [|discriminate].
  change (String d s = String d (p +:+ slice (String.length p) s)).
  f_equal. now apply IH.
Qed.

Lemma startsWith_same_length (p scheme rest : string) :
  String.length scheme = String.length p ->
  startsWith (scheme +:+ rest) p = true -> scheme = p.
Proof.
  revert scheme; induction p as [|c p IH]; intros [|d scheme] Hlen H;
    simpl in *; try discriminate; [reflexivity|].
  destruct (Ascii.eqb_spec c d) as [->|]; [|discriminate].
  f_equal. apply IH; [congruence|assumption].
Qed.

Lemma toLowerCase_length (s : string) :
  String.length (toLowerCase s) = String.length s.
Proof. induction s; simpl; congruence. Qed.

Lemma split_until_sep (sep : ascii) (s : string) :
  exists pieces, split sep s = until_sep sep s :: pieces.
Proof.
  induction s as [|c s [pieces IH]]; simpl.
  - now exists [].
  - destruct (Ascii.eqb c sep); [now eexists|].
    rewrite IH. now eexists.
Qed.

Lemma until_sep_whole (sep : ascii) (s : string) :
  until_sep sep s = s <-> includes sep s = false.
Proof.
  induction s as [|c s IH]; simpl; [tauto|].
  destruct (Ascii.eqb c sep); simpl.
  - split; discriminate.
  - rewrite <- IH. split; [now intros [= ->]|congruence].
Qed.

Lemma split_Bearer (rest : string) :
  split " " ("Bearer " +:+ rest) = "Bearer" :: split " " rest.
Proof.
  destruct (split_until_sep " " rest) as [pieces E].
  change ("Bearer " +:+ rest) with
    (String "B" (String "e" (String "a" (String "r" (String "e"
       (String "r" (String " " rest))))))).
  cbn. rewrite E. reflexivity.
Qed.

(** ** The header check *)

Lemma no_bearer_false (a : option string) :
  no_bearer a = false <-> exists h, a = Some h /\ startsWith h "Bearer " = true.
Proof.
  destruct a as [h|]; simpl.
  - rewrite orb_false_iff, negb_false_iff. split.
    + intros [_ H]. eauto.
    + intros (h' & [= <-] & H). split; [|assumption].
      destruct h; [discriminate|reflexivity].
  - split; [discriminate|]. now intros (h & ? & _).
Qed.

Lemma no_bearer_true (a : option string) :
  no_bearer a = true <->
  a = None \/ exists h, a = Some h /\ startsWith h "Bearer " = false.
Proof.
  destruct (no_bearer a) eqn:E.
  - split; [intros _|reflexivity].
    destruct a as [h|]; [right|now left].
    exists h. split; [reflexivity|].
    destruct (startsWith h "Bearer ") eqn:S; [|reflexivity].
    assert (no_bearer (Some h) = false) by (apply no_bearer_false; eauto).
    congruence.
  - apply no_bearer_false in E as (h & -> & S).
    split; [discriminate|]. intros [|(h' & [= <-] & ?)]; congruence.
Qed.

(** The token looked up is the piece of the header between its first and
    its second space. *)
Lemma bearer_token_prefixed (h : string) :
  startsWith h "Bearer " = true ->
  bearer_token (Some h) = Some (until_sep " " (spec_token h)).
Proof.
  intros H. apply startsWith_inv in H. unfold spec_token.
  change (String.length "Bearer ") with 7%nat in H.
  remember (slice 7 h) as rest eqn:R. clear R. subst h.
  unfold bearer_token. rewrite split_Bearer.
  destruct (split_until_sep " " rest) as [pieces ->]. reflexivity.
Qed.

(** ** The five ways through [requireAuth] *)

Section Paths.
Variable st : State.

Lemma requireAuth_no_token :
  no_bearer (authorization (req st)) = true ->
  requireAuth st = (Returned tt, replied 401 no_token_body st).
Proof.
  intros H. unfold requireAuth, try_catch, mbind, M_bind, gets. now rewrite H.
Qed.

Variable tok : option string.
Hypothesis Hbearer : no_bearer (authorization (req st)) = false.
Hypothesis Htok : bearer_token (authorization (req st)) = tok.

Lemma requireAuth_lookup_throws (t : string) (e : JsError) :
  tok = Some t -> db_fault st = Some e ->
  requireAuth st =
    (Returned tt,
     replied 500 auth_failure_body
       (logged ("Auth middleware error: " +:+ error_toString e) (queried tok st))).
Proof.
  intros -> F. unfold requireAuth, try_catch, mbind, M_bind, gets, findUnique.
  now rewrite Hbearer, Htok, F.
Qed.

Lemma requireAuth_not_found (t : string) :
  tok = Some t -> db_fault st = None -> sessions st !! t = None ->
  requireAuth st = (Returned tt, replied 401 invalid_token_body (queried tok st)).
Proof.
  intros -> F L. unfold requireAuth, try_catch, mbind, M_bind, gets, findUnique.
  now rewrite Hbearer, Htok, F, L.
Qed.

Lemma requireAuth_expired (t : string) (s : Session) :
  tok = Some t -> db_fault st = None -> sessions st !! t = Some s ->
  expiresAt s < clock st ->
  requireAuth st = (Returned tt, replied 401 invalid_token_body (queried tok st)).
Proof.
  intros -> F L X. apply Z.ltb_lt in X.
  unfold requireAuth, try_catch, mbind, M_bind, gets, findUnique, new_Date, gets.
  rewrite Hbearer, Htok, F, L. cbn. now rewrite X.
Qed.

Lemma requireAuth_passes (t : string) (s : Session) :
  tok = Some t -> db_fault st = None -> sessions st !! t = Some s ->
  clock st <= expiresAt s ->
  requireAuth st = (Returned tt, passed_on (identity_of s) (queried tok st)).
Proof.
  intros -> F L X. apply Z.ltb_ge in X.
  unfold requireAuth, try_catch, mbind, M_bind, gets, findUnique, new_Date, gets.
  rewrite Hbearer, Htok, F, L. cbn. now rewrite X.
Qed.
End Paths.

(** A header that passes the check always yields a token: the [undefined]
    case of [split(" ")[1]] cannot be reached. *)
Lemma bearer_token_defined (a : option string) :
  no_bearer a = false -> exists t, bearer_token a = Some t.
Proof.
  intros H. apply no_bearer_false in H as (h & -> & H).
  rewrite (bearer_token_prefixed h H). eauto.
Qed.

(** [requireAuth] always returns, never throws, and ends in one of the
    states above. *)
Lemma requireAuth_result (st : State) :
  exists st', requireAuth st = (Returned tt, st') /\ auth_result st st'.
Proof.
  destruct (no_bearer (authorization (req st))) eqn:B.
  - eexists. split; [now apply requireAuth_no_token|now constructor].
  - destruct (bearer_token_defined _ B) as [t T].
    destruct (db_fault st) as [e|] eqn:F.
    + eexists. split; [now apply (requireAuth_lookup_throws st (Some t) B T t e)|].
      now constructor.
    + destruct (sessions st !! t) as [s|] eqn:L.
      * destruct (Z_lt_le_dec (expiresAt s) (clock st)) as [X|X].
        -- eexists. split; [now apply (requireAuth_expired st (Some t) B T t s)|].
           now apply (auth_expired st t s).
        -- eexists. split; [now apply (requireAuth_passes st (Some t) B T t s)|].
           now apply (auth_passes st t s).
      * eexists. split; [now apply (requireAuth_not_found st (Some t) B T t)|].
        now constructor.
Qed.

(** ** Routes *)

Lemma userRoutes_inv (method path : string) (layers : list (M unit)) :
  userRoutes method path = Some layers ->
  (path = "/profile" /\ layers = [requireAuth; profile]) \/
  (path = "/dashboard" /\ layers = [requireAuth; dashboard]).
Proof.
  unfold userRoutes. destruct (negb (String.eqb method "GET")); [discriminate|].
  destruct (String.eqb_spec path "/profile") as [->|_].
  - intros [= <-]. now left.
  - destruct (String.eqb_spec path "/dashboard") as [->|_]; [|discriminate].
    intros [= <-]. now right.
Qed.

Lemma run_guarded (handler : M unit) (st : State) :
  run_layers [requireAuth; handler] st =
    match requireAuth (set_next_called false st) with
    | (Returned _, st1) =>
        if next_called st1 then run_layers [handler] st1 else (Returned tt, st1)
    | (Thrown e, st1) => (Thrown e, st1)
    end.
Proof.
  unfold run_layers, mbind, M_bind, modify, gets.
  destruct (requireAuth (set_next_called false st)) as [[[]|e] st1];
    [destruct (next_called st1)|]; reflexivity.
Qed.

(** A guarded route whose middleware does not call [next()] ends where the
    middleware ends. *)
Lemma run_guarded_stops (handler : M unit) (st st1 : State) :
  requireAuth (set_next_called false st) = (Returned tt, st1) ->
  next_called st1 = false ->
  run_layers [requireAuth; handler] st = (Returned tt, st1).
Proof. intros E N. rewrite run_guarded, E, N. reflexivity. Qed.

Lemma run_guarded_continues (handler : M unit) (st st1 : State) :
  requireAuth (set_next_called false st) = (Returned tt, st1) ->
  next_called st1 = true ->
  run_layers [requireAuth; handler] st = run_layers [handler] st1.
Proof. intros E N. rewrite run_guarded, E, N. reflexivity. Qed.

Lemma run_profile (st : State) :
  run_layers [profile] st =
    (Returned tt,
     replied (statusCode (res st))
       (with_user "This is a protected route" (req_user (req st)))
       (set_next_called false st)).
Proof. reflexivity. Qed.

Lemma run_dashboard (st : State) :
  run_layers [dashboard] st =
    (Returned tt,
     replied (statusCode (res st))
       (with_user "Welcome to your dashboard!" (req_user (req st)))
       (set_next_called false st)).
Proof. reflexivity. Qed.

Lemma startsWith_no_bearer (h : string) :
  startsWith h "Bearer " = true -> no_bearer (Some h) = false.
Proof. intros H. apply no_bearer_false. eauto. Qed.

Lemma until_sep_append (sep : ascii) (t junk : string) :
  includes sep t = false ->
  until_sep sep (t +:+ String sep junk) = t.
Proof.
  induction t as [|c t IH]; simpl.
  - intros _. now rewrite Ascii.eqb_refl.
  - intros H. apply orb_false_iff in H as [C I]. rewrite C.
    f_equal. now apply IH.
Qed.

Lemma bearer_token_Bearer (rest : string) :
  bearer_token (Some ("Bearer " +:+ rest)) = Some (until_sep " " rest).
Proof. apply (bearer_token_prefixed _ (startsWith_append "Bearer " rest)). Qed.

Lemma no_bearer_Bearer (rest : string) :
  no_bearer (Some ("Bearer " +:+ rest)) = false.
Proof. apply startsWith_no_bearer, startsWith_append. Qed.

(** For a token without a space, the header "Bearer <token>" passes the
    check and the token read from it is that token. *)
Lemma bearer_token_plain (t : string) :
  includes " " t = false ->
  bearer_token (Some ("Bearer " +:+ t)) = Some t.
Proof.
  intros I. rewrite bearer_token_Bearer. f_equal. now apply until_sep_whole.
Qed.

(** * The claims *)

(** C1. A request to a protected route that bears, as "Bearer <token>", a
    token without a space whose session exists and expires strictly after
    the current time: the middleware writes no response, sets [req.user]
    to an object with exactly the fields [id], [email] and [name] of the
    session's user and calls [next()]; the handler then answers with
    status 200 and [{message, user: {id, email, name}}], the message of
    [/dashboard] being "Welcome to your dashboard!". *)
Theorem valid_session_reaches_handler
    (db : gmap string Session) (now : Z) (t : string) (s : Session)
    (path : string) (layers : list (M unit)) :
  userRoutes "GET" path = Some layers ->
  includes " " t = false ->
  db !! t = Some s ->
  now < expiresAt s ->
  let st0 := incoming db None now (Some ("Bearer " +:+ t)) in
  let mw := requireAuth st0 in
  let rt := run_layers layers st0 in
  let who := JObj [("id", JStr (user_id (user s)));
                   ("email", JStr (user_email (user s)));
                   ("name", JStr (user_name (user s)))] in
  mw.1 = Returned tt /\
  req_user (req mw.2) =
    Some {| id := user_id (user s); email := user_email (user s);
            name := user_name (user s) |} /\
  next_called mw.2 = true /\
  res mw.2 = fresh_response /\
  db_queries mw.2 = [Some t] /\
  rt.1 = Returned tt /\
  statusCode (res rt.2) = 200 /\
  json_keys who = ["id"; "email"; "name"] /\
  exists message,
    body (res rt.2) = Some (JObj [("message", JStr message); ("user", who)]) /\
    (path = "/dashboard" -> message = "Welcome to your dashboard!") /\
    (path = "/profile" -> message = "This is a protected route").
Proof.
  intros R I L X st0 mw rt who.
  assert (E : mw = (Returned tt, passed_on (identity_of s) (queried (Some t) st0))).
  { apply (requireAuth_passes st0 (Some t) (no_bearer_Bearer t)
             (bearer_token_plain t I) t s);
      [reflexivity|reflexivity|exact L|simpl; lia]. }
  rewrite E. repeat (split; [reflexivity|]).
  subst rt. destruct (userRoutes_inv _ _ _ R) as [[-> ->]|[-> ->]];
    (rewrite (run_guarded_continues _ st0 _ E eq_refl));
    [rewrite run_profile|rewrite run_dashboard];
    (repeat (split; [reflexivity|])); eexists;
    (split; [reflexivity|]); split; intros; (reflexivity || discriminate).
Qed.

(** The scenario of the specification: the session of token "xyz" expires
    in one hour and belongs to user u1. *)
Lemma valid_session_reaches_handler_witness :
  let rt := run_layers [requireAuth; dashboard]
              (incoming (scenario_db (1000 + hour)) None 1000 (Some "Bearer xyz")) in
  statusCode (res rt.2) = 200 /\
  body (res rt.2) =
    Some (JObj [("message", JStr "Welcome to your dashboard!");
                ("user", JObj [("id", JStr "u1"); ("email", JStr "a@b.com");
                               ("name", JStr "A")])]).
Proof.
  destruct (valid_session_reaches_handler (scenario_db (1000 + hour)) 1000
              "xyz" (mkSession "xyz" (1000 + hour) scenario_user [])
              "/dashboard" [requireAuth; dashboard])
    as (_ & _ & _ & _ & _ & _ & S & _ & msg & B & D & _);
    [reflexivity|reflexivity|vm_compute; reflexivity|vm_compute; reflexivity|].
  split; [exact S|]. etransitivity; [exact B|]. rewrite (D eq_refl). reflexivity.
Defined.

(** C2, as stated, fails when the session expires exactly at the current
    time: [expiresAt < new Date()] is false there, so the request is let
    through and the handler answers 200. *)
Lemma session_expiring_now_is_served :
  let s := mkSession "xyz" 1000 scenario_user [] in
  let st0 := incoming (scenario_db 1000) None 1000 (Some "Bearer xyz") in
  scenario_db 1000 !! "xyz" = Some s /\
  expiresAt s <= clock st0 /\
  statusCode (res (requireAuth st0).2) <> 401 /\
  next_called (requireAuth st0).2 = true /\
  (run_layers [requireAuth; dashboard] st0).2 =
    replied 200
      (JObj [("message", JStr "Welcome to your dashboard!");
             ("user", JObj [("id", JStr "u1"); ("email", JStr "a@b.com");
                            ("name", JStr "A")])])
      (set_next_called false
         (passed_on (mkIdentity "u1" "a@b.com" "A") (queried (Some "xyz") st0))).
Proof. vm_compute. repeat split; try reflexivity; discriminate. Qed.

(** C2, amended. A session whose expiration lies strictly before the
    current time is answered 401 "Unauthorized: Invalid or expired token",
    [next()] is not called and the route ends with the middleware's
    response; a session whose expiration equals the current time is not
    rejected: the identity is attached and the handler answers 200. *)
Theorem expired_session_rejected
    (db : gmap string Session) (now : Z) (h t : string) (s : Session)
    (path : string) (layers : list (M unit)) :
  userRoutes "GET" path = Some layers ->
  startsWith h "Bearer " = true ->
  bearer_token (Some h) = Some t ->
  db !! t = Some s ->
  expiresAt s <= now ->
  let st0 := incoming db None now (Some h) in
  let mw := requireAuth st0 in
  let rt := run_layers layers st0 in
  (expiresAt s < now ->
     mw.1 = Returned tt /\
     statusCode (res mw.2) = 401 /\
     body (res mw.2) =
       Some (JObj [("error", JStr "Unauthorized: Invalid or expired token")]) /\
     next_called mw.2 = false /\
     req_user (req mw.2) = None /\
     rt = mw) /\
  (expiresAt s = now ->
     next_called mw.2 = true /\
     req_user (req mw.2) = Some (identity_of s) /\
     statusCode (res rt.2) = 200 /\
     exists message,
       body (res rt.2) = Some (with_user message (Some (identity_of s)))).
Proof.
  intros R P T L _ st0 mw rt.
  pose proof (startsWith_no_bearer h P) as B. split; intros X.
  - assert (E : mw = (Returned tt, replied 401 invalid_token_body (queried (Some t) st0))).
    { apply (requireAuth_expired st0 (Some t) B T t s); auto. }
    rewrite E. repeat (split; [reflexivity|]).
    subst rt. destruct (userRoutes_inv _ _ _ R) as [[_ ->]|[_ ->]];
      apply run_guarded_stops; (exact E || reflexivity).
  - assert (E : mw = (Returned tt, passed_on (identity_of s) (queried (Some t) st0))).
    { apply (requireAuth_passes st0 (Some t) B T t s); auto. simpl. lia. }
    rewrite E. repeat (split; [reflexivity|]).
    subst rt. destruct (userRoutes_inv _ _ _ R) as [[_ ->]|[_ ->]];
      (rewrite (run_guarded_continues _ st0 _ E eq_refl));
      [rewrite run_profile|rewrite run_dashboard];
      (split; [reflexivity|]); eexists; reflexivity.
Qed.

(** The scenario of the specification: the session of "xyz" expired one
    hour ago. *)
Lemma expired_session_rejected_witness :
  let st0 := incoming (scenario_db 1000) None (1000 + hour) (Some "Bearer xyz") in
  statusCode (res (run_layers [requireAuth; profile] st0).2) = 401 /\
  body (res (run_layers [requireAuth; profile] st0).2) =
    Some (JObj [("error", JStr "Unauthorized: Invalid or expired token")]).
Proof.
  destruct (expired_session_rejected (scenario_db 1000) (1000 + hour)
              "Bearer xyz" "xyz" (mkSession "xyz" 1000 scenario_user [])
              "/profile" [requireAuth; profile])
    as [X _];
    [reflexivity|reflexivity|reflexivity|vm_compute; reflexivity|vm_compute; discriminate|].
  destruct X as (_ & S & B & _ & _ & E); [vm_compute; reflexivity|].
  cbv zeta. rewrite E. split; [exact S|exact B].
Defined.

(** C3. A request to a protected route with no [Authorization] header, or
    with one that does not begin with "Bearer ", is answered 401
    [{error: "Unauthorized: No Token provided"}]; the session table is not
    queried, [next()] is not called and the route ends with the
    middleware's response. *)
Theorem missing_or_malformed_header_rejected
    (db : gmap string Session) (fault : option JsError) (now : Z)
    (a : option string) (path : string) (layers : list (M unit)) :
  userRoutes "GET" path = Some layers ->
  a = None \/ (exists h, a = Some h /\ startsWith h "Bearer " = false) ->
  let st0 := incoming db fault now a in
  let mw := requireAuth st0 in
  mw.1 = Returned tt /\
  statusCode (res mw.2) = 401 /\
  body (res mw.2) = Some (JObj [("error", JStr "Unauthorized: No Token provided")]) /\
  db_queries mw.2 = [] /\
  next_called mw.2 = false /\
  req_user (req mw.2) = None /\
  run_layers layers st0 = mw.
Proof.
  intros R H st0 mw. apply no_bearer_true in H.
  assert (E : mw = (Returned tt, replied 401 no_token_body st0))
    by (apply requireAuth_no_token; exact H).
  rewrite E. repeat (split; [reflexivity|]).
  destruct (userRoutes_inv _ _ _ R) as [[_ ->]|[_ ->]];
    apply run_guarded_stops; (exact E || reflexivity).
Qed.

Lemma missing_or_malformed_header_rejected_witness :
  let st0 := incoming (scenario_db (1000 + hour)) None 1000 (Some "Basic xyz") in
  (run_layers [requireAuth; dashboard] st0).2 = replied 401 no_token_body st0.
Proof.
  destruct (missing_or_malformed_header_rejected (scenario_db (1000 + hour)) None 1000
              (Some "Basic xyz") "/dashboard" [requireAuth; dashboard])
    as (_ & _ & _ & _ & _ & _ & E);
    [reflexivity|right; exists "Basic xyz"; split; reflexivity|].
  cbv zeta. rewrite E. reflexivity.
Defined.

(** C4, as stated, fails in two ways. A session that expires exactly at
    the current time is served, so its response (200) differs from the 401
    of an unknown token. And a token with a space is not looked up whole:
    "a b" has no session, yet "Bearer a b" is served with the session of
    "a". *)
Lemma not_found_and_expiring_now_differ :
  let s := mkSession "xyz" 1000 scenario_user [] in
  let unknown := incoming (scenario_db 1000) None 1000 (Some "Bearer abc123") in
  let expiring := incoming (scenario_db 1000) None 1000 (Some "Bearer xyz") in
  let table := ({[ "a" := mkSession "a" 5000 scenario_user [] ]} : gmap string Session) in
  let spaced := incoming table None 1000 (Some "Bearer a b") in
  (scenario_db 1000 !! "abc123" = None /\
   scenario_db 1000 !! "xyz" = Some s /\ expiresAt s <= clock expiring /\
   statusCode (res (run_layers [requireAuth; profile] unknown).2) = 401 /\
   statusCode (res (run_layers [requireAuth; profile] expiring).2) = 200 /\
   res (run_layers [requireAuth; profile] unknown).2 <>
   res (run_layers [requireAuth; profile] expiring).2) /\
  (spec_token "Bearer a b" = "a b" /\ table !! "a b" = None /\
   statusCode (res (run_layers [requireAuth; profile] spaced).2) = 200).
Proof. vm_compute. repeat split; try reflexivity; discriminate. Qed.

(** C4, amended. For tokens without a space, borne as "Bearer <token>": a
    request whose token has no session and a request whose token has a
    session that expired strictly before the current time get the same
    response, 401 [{error: "Unauthorized: Invalid or expired token"}],
    from the middleware and from the whole route. *)
Theorem not_found_and_expired_indistinguishable
    (db1 db2 : gmap string Session) (now1 now2 : Z)
    (t1 t2 : string) (s2 : Session)
    (path1 path2 : string) (layers1 layers2 : list (M unit)) :
  userRoutes "GET" path1 = Some layers1 ->
  userRoutes "GET" path2 = Some layers2 ->
  includes " " t1 = false ->
  includes " " t2 = false ->
  db1 !! t1 = None ->
  db2 !! t2 = Some s2 -> expiresAt s2 < now2 ->
  let unknown := incoming db1 None now1 (Some ("Bearer " +:+ t1)) in
  let expired := incoming db2 None now2 (Some ("Bearer " +:+ t2)) in
  res (requireAuth unknown).2 = res (requireAuth expired).2 /\
  res (run_layers layers1 unknown).2 = res (run_layers layers2 expired).2 /\
  res (run_layers layers1 unknown).2 =
    mkResponse 401 (Some (JObj [("error", JStr "Unauthorized: Invalid or expired token")])) /\
  next_called (requireAuth unknown).2 = false /\
  next_called (requireAuth expired).2 = false.
Proof.
  intros R1 R2 I1 I2 L1 L2 X unknown expired.
  assert (E1 : requireAuth unknown =
               (Returned tt, replied 401 invalid_token_body (queried (Some t1) unknown))).
  { apply (requireAuth_not_found unknown (Some t1) (no_bearer_Bearer t1)
             (bearer_token_plain t1 I1) t1); auto. }
  assert (E2 : requireAuth expired =
               (Returned tt, replied 401 invalid_token_body (queried (Some t2) expired))).
  { apply (requireAuth_expired expired (Some t2) (no_bearer_Bearer t2)
             (bearer_token_plain t2 I2) t2 s2); auto. }
  assert (S1 : run_layers layers1 unknown = requireAuth unknown).
  { rewrite E1. destruct (userRoutes_inv _ _ _ R1) as [[_ ->]|[_ ->]];
      apply run_guarded_stops; (exact E1 || reflexivity). }
  assert (S2 : run_layers layers2 expired = requireAuth expired).
  { rewrite E2. destruct (userRoutes_inv _ _ _ R2) as [[_ ->]|[_ ->]];
      apply run_guarded_stops; (exact E2 || reflexivity). }
  rewrite S1, S2, E1, E2. repeat split.
Qed.

(** The two scenarios of the specification: "abc123" is not in the session
    table; the session of "xyz" expired one hour ago. *)
Lemma not_found_and_expired_indistinguishable_witness :
  res (run_layers [requireAuth; profile]
         (incoming (scenario_db 1000) None (1000 + hour) (Some "Bearer abc123"))).2 =
  res (run_layers [requireAuth; profile]
         (incoming (scenario_db 1000) None (1000 + hour) (Some "Bearer xyz"))).2.
Proof.
  refine (proj1 (proj2 (not_found_and_expired_indistinguishable
            (scenario_db 1000) (scenario_db 1000) (1000 + hour) (1000 + hour)
            "abc123" "xyz" (mkSession "xyz" 1000 scenario_user [])
            "/profile" "/profile" [requireAuth; profile] [requireAuth; profile]
            _ _ _ _ _ _ _))); try reflexivity; vm_compute; reflexivity.
Defined.

(** C5, as stated, fails for a header whose remainder holds a space: for
    "Bearer a b" the substring after the prefix is "a b", and the session
    table is queried with "a". *)
Lemma lookup_key_is_not_whole_remainder :
  let st0 := incoming (∅ : gmap string Session) None 0 (Some "Bearer a b") in
  startsWith "Bearer a b" "Bearer " = true /\
  spec_token "Bearer a b" = "a b" /\
  db_queries (requireAuth st0).2 = [Some "a"] /\
  db_queries (requireAuth st0).2 <> [Some (spec_token "Bearer a b")].
Proof. vm_compute. repeat split; try reflexivity; discriminate. Qed.

(** C5, amended. For a header that begins with "Bearer ", the session
    table is queried once, with the part of the substring after the prefix
    that precedes its first space; this is the entire substring exactly
    when the substring holds no space. The lookup is by exact equality
    with that key: the response and the request depend on the table only
    through its entry at the key. *)
Theorem lookup_key_is_first_piece
    (db : gmap string Session) (fault : option JsError) (now : Z) (h : string) :
  startsWith h "Bearer " = true ->
  let key := until_sep " " (spec_token h) in
  let after := fun table => (requireAuth (incoming table fault now (Some h))).2 in
  db_queries (after db) = [Some key] /\
  (key = spec_token h <-> includes " " (spec_token h) = false) /\
  forall db' : gmap string Session,
    db' !! key = db !! key ->
    res (after db') = res (after db) /\ req (after db') = req (after db) /\
    next_called (after db') = next_called (after db).
Proof.
  intros P key after.
  pose proof (startsWith_no_bearer h P) as B.
  pose proof (bearer_token_prefixed h P) as T. fold key in T. clear P.
  assert (Q : forall table, exists st',
             after table = st' /\ auth_result (incoming table fault now (Some h)) st').
  { intros table. destruct (requireAuth_result (incoming table fault now (Some h)))
      as (st' & E & A). exists st'. unfold after. now rewrite E. }
  split; [|split; [apply until_sep_whole|]].
  - destruct (Q db) as (st' & -> & A).
    inversion A as [N|t e _ T'|t _ T'|t s _ T'|t s _ T']; simpl in *;
      congruence.
  - intros db' K.
    destruct (Q db) as (st & -> & A), (Q db') as (st' & -> & A').
    inversion A as [N|t e _ T1 F|t _ T1 F L|t s _ T1 F L X|t s _ T1 F L X];
      inversion A' as [N'|t' e' _ T2 F'|t' _ T2 F' L'|t' s' _ T2 F' L' X'|t' s' _ T2 F' L' X'];
      simpl in *; try congruence;
      assert (t = key) by congruence; assert (t' = key) by congruence; subst t t';
      try (rewrite K in *; congruence); try (repeat split; congruence).
    + rewrite K in L'. assert (s' = s) by congruence. subst s'. lia.
    + rewrite K in L'. assert (s' = s) by congruence. subst s'. lia.
Qed.

Lemma lookup_key_is_first_piece_witness :
  db_queries (requireAuth (incoming (scenario_db (1000 + hour)) None 1000
                             (Some "Bearer xyz and more"))).2 = [Some "xyz"].
Proof.
  exact (proj1 (lookup_key_is_first_piece (scenario_db (1000 + hour)) None 1000
                  "Bearer xyz and more" eq_refl)).
Defined.

(** C6, as stated, fails for the 500 of the auth middleware: when the
    session lookup throws, the body holds the field [error] alone, with no
    [message] field. *)
Lemma auth_failure_body_has_no_message :
  let cause := mkError "PrismaClientInitializationError"
                       "Can't reach database server" in
  let rt := (run_layers [requireAuth; profile]
               (incoming (scenario_db (1000 + hour)) (Some cause) 1000
                         (Some "Bearer xyz"))).2 in
  statusCode (res rt) = 500 /\
  (exists j, body (res rt) = Some j /\
             json_keys j = ["error"] /\ json_field "message" j = None).
Proof. vm_compute. split; [reflexivity|]. eexists. repeat split. Qed.

(** C6, amended. Every 500 sent on a protected route comes from a throwing
    session lookup; its body is exactly
    [{error: "Internal server error during auth"}], without a [message]
    field, the cause is written to the console as one line and the
    response is the same whatever the cause. The 500 of the global error
    responder carries both [error] and [message], and its [message] is the
    failure's own message text, which is also the text it logs. *)
Theorem internal_failure_responses
    (db : gmap string Session) (fault : option JsError) (now : Z)
    (a : option string) (path : string) (layers : list (M unit))
    (err : JsError) (st : State) :
  userRoutes "GET" path = Some layers ->
  statusCode (res (run_layers layers (incoming db fault now a)).2) = 500 ->
  let rt := (run_layers layers (incoming db fault now a)).2 in
  let eh := (errorHandler err st).2 in
  (exists cause,
     fault = Some cause /\
     body (res rt) = Some (JObj [("error", JStr "Internal server error during auth")]) /\
     console rt = ["Auth middleware error: " +:+ error_toString cause] /\
     forall other : JsError,
       res (run_layers layers (incoming db (Some other) now a)).2 = res rt) /\
  statusCode (res eh) = 500 /\
  body (res eh) = Some (JObj [("error", JStr "Internal server error");
                              ("message", JStr (err_message err))]) /\
  console eh = (console st ++ ["Error: " +:+ err_message err])%list.
Proof.
  intros R S rt eh. split; [|repeat split].
  set (st0 := incoming db fault now a) in *.
  destruct (requireAuth_result st0) as (st1 & E & A).
  assert (L : exists handler, layers = [requireAuth; handler] /\
                (forall s1, statusCode (res (run_layers [handler] s1).2) =
                            statusCode (res s1))).
  { destruct (userRoutes_inv _ _ _ R) as [[_ ->]|[_ ->]]; eexists; split;
      try reflexivity; intros s1;
      first [rewrite run_profile|rewrite run_dashboard]; reflexivity. }
  destruct L as (handler & -> & K). subst rt.
  inversion A as [N|t e B T F|t B T F L|t s B T F L X|t s B T F L X]; subst st1.
  - rewrite (run_guarded_stops _ st0 _ E eq_refl) in S. discriminate.
  - rewrite (run_guarded_stops _ st0 _ E eq_refl). exists e.
    split; [exact F|]. split; [reflexivity|]. split; [reflexivity|].
    intros other.
    rewrite (run_guarded_stops handler (incoming db (Some other) now a) _
               (requireAuth_lookup_throws (incoming db (Some other) now a)
                  (Some t) B T t other eq_refl eq_refl) eq_refl).
    reflexivity.
  - rewrite (run_guarded_stops _ st0 _ E eq_refl) in S. discriminate.
  - rewrite (run_guarded_stops _ st0 _ E eq_refl) in S. discriminate.
  - rewrite (run_guarded_continues _ st0 _ E eq_refl), K in S. discriminate.
Qed.

Lemma internal_failure_responses_witness :
  let cause := mkError "PrismaClientInitializationError"
                       "Can't reach database server" in
  console (run_layers [requireAuth; dashboard]
             (incoming (scenario_db (1000 + hour)) (Some cause) 1000
                       (Some "Bearer xyz"))).2 =
    ["Auth middleware error: PrismaClientInitializationError: Can't reach database server"].
Proof.
  intros cause.
  destruct (internal_failure_responses (scenario_db (1000 + hour)) (Some cause) 1000
              (Some "Bearer xyz") "/dashboard" [requireAuth; dashboard]
              cause (incoming ∅ None 0 None))
    as ((c & F & _ & C & _) & _); [reflexivity|reflexivity|].
  rewrite C. injection F as <-. reflexivity.
Defined.

(** C7. For every failure it is given, the global error responder writes
    exactly one line, "Error: " followed by the failure's message, to the
    console, sets status 500 and sends
    [{error: "Internal server error", message: <the failure's message>}];
    it returns normally, does not call [next()], touches nothing else, and
    behaves the same for failures of any kind with the same message. *)
Theorem errorHandler_contract (err : JsError) (st : State) :
  let out := errorHandler err st in
  out.1 = Returned tt /\
  console out.2 = (console st ++ ["Error: " +:+ err_message err])%list /\
  length (console out.2) = S (length (console st)) /\
  statusCode (res out.2) = 500 /\
  body (res out.2) = Some (JObj [("error", JStr "Internal server error");
                                 ("message", JStr (err_message err))]) /\
  next_called out.2 = next_called st /\
  out.2 = replied 500 (JObj [("error", JStr "Internal server error");
                             ("message", JStr (err_message err))])
            (logged ("Error: " +:+ err_message err) st) /\
  forall kind : string, errorHandler (mkError kind (err_message err)) st = out.
Proof.
  intros out. repeat split.
  change (console out.2) with (console st ++ ["Error: " +:+ err_message err])%list.
  rewrite length_app. simpl. lia.
Qed.

(** C8, as stated, fails in its last clause: the response written on
    failure is not the only effect. When the lookup throws, a line is also
    written to the console; on success no response is written, yet the
    request is changed and [next()] is called. *)
Lemma response_is_not_the_only_effect :
  let cause := mkError "PrismaClientInitializationError"
                       "Can't reach database server" in
  let failing := incoming (scenario_db (1000 + hour)) (Some cause) 1000
                          (Some "Bearer xyz") in
  let working := incoming (scenario_db (1000 + hour)) None 1000
                          (Some "Bearer xyz") in
  (statusCode (res (requireAuth failing).2) = 500 /\
   console failing = [] /\
   console (requireAuth failing).2 =
     ["Auth middleware error: PrismaClientInitializationError: Can't reach database server"]) /\
  (res (requireAuth working).2 = res working /\
   req (requireAuth working).2 <> req working /\
   next_called working = false /\
   next_called (requireAuth working).2 = true).
Proof. vm_compute. repeat split; try reflexivity; discriminate. Qed.

(** C8, amended. Whatever way [requireAuth] takes, the session table after
    it is the session table before it, on its own and inside both
    protected routes; the datastore's condition and the clock are not
    touched either. Its effects are one of: it passes the request on, with
    the identity attached, the header kept and the response and the
    console untouched; it writes a 401 response and leaves the request and
    the console as they were; it writes a 500 response, leaves the request
    as it was and logs one line. *)
Theorem requireAuth_preserves_sessions (st : State) :
  let st' := (requireAuth st).2 in
  sessions st' = sessions st /\
  sessions (run_layers [requireAuth; profile] st).2 = sessions st /\
  sessions (run_layers [requireAuth; dashboard] st).2 = sessions st /\
  db_fault st' = db_fault st /\
  clock st' = clock st /\
  ((next_called st' = true /\ res st' = res st /\ console st' = console st /\
    authorization (req st') = authorization (req st) /\
    is_Some (req_user (req st'))) \/
   (next_called st' = next_called st /\ req st' = req st /\
    console st' = console st /\
    statusCode (res st') = 401 /\ is_Some (body (res st'))) \/
   (next_called st' = next_called st /\ req st' = req st /\
    (exists line, console st' = (console st ++ [line])%list) /\
    statusCode (res st') = 500 /\ is_Some (body (res st')))).
Proof.
  intros st'.
  assert (G : forall handler msg,
            (forall s1, run_layers [handler] s1 =
               (Returned tt, replied (statusCode (res s1))
                               (with_user msg (req_user (req s1)))
                               (set_next_called false s1))) ->
            sessions (run_layers [requireAuth; handler] st).2 = sessions st).
  { intros handler msg K. rewrite run_guarded.
    destruct (requireAuth_result (set_next_called false st)) as (s1 & -> & A).
    destruct (next_called s1); [rewrite K|]; inversion A; reflexivity. }
  split; [|split; [apply (G _ _ run_profile)|split; [apply (G _ _ run_dashboard)|]]];
    subst st'; destruct (requireAuth_result st) as (s1 & -> & A);
    inversion A; simpl; eauto 12.
Qed.

(** C9. The scheme is compared exactly, case included: a header whose
    first seven characters spell "bearer " in another case ("bearer ",
    "BEARER ", ...), whatever follows it, and the bare header "Bearer"
    are answered 401 [{error: "Unauthorized: No Token provided"}] without
    a lookup, even when what follows is the token of a valid session. *)
Theorem scheme_check_is_case_sensitive
    (db : gmap string Session) (fault : option JsError) (now : Z)
    (h : string) (path : string) (layers : list (M unit)) :
  userRoutes "GET" path = Some layers ->
  h = "Bearer" \/
  (exists scheme rest,
     h = scheme +:+ rest /\ toLowerCase scheme = "bearer " /\ scheme <> "Bearer ") ->
  let rt := run_layers layers (incoming db fault now (Some h)) in
  rt.1 = Returned tt /\
  statusCode (res rt.2) = 401 /\
  body (res rt.2) = Some (JObj [("error", JStr "Unauthorized: No Token provided")]) /\
  db_queries rt.2 = [] /\
  req_user (req rt.2) = None.
Proof.
  intros R H rt.
  assert (S : startsWith h "Bearer " = false).
  { destruct H as [->|(scheme & rest & -> & Low & Ne)]; [reflexivity|].
    destruct (startsWith (scheme +:+ rest) "Bearer ") eqn:S; [|reflexivity].
    exfalso. apply Ne. apply (startsWith_same_length _ _ rest); [|exact S].
    rewrite <- toLowerCase_length, Low. reflexivity. }
  assert (E : requireAuth (incoming db fault now (Some h)) =
              (Returned tt, replied 401 no_token_body (incoming db fault now (Some h)))).
  { apply requireAuth_no_token. apply no_bearer_true. right. eauto. }
  subst rt. destruct (userRoutes_inv _ _ _ R) as [[_ ->]|[_ ->]];
    rewrite (run_guarded_stops _ (incoming db fault now (Some h)) _ E eq_refl);
    repeat split.
Qed.

(** "bearer xyz", where "xyz" is the token of a session that is valid for
    another hour. *)
Lemma scheme_check_is_case_sensitive_witness :
  scenario_db (1000 + hour) !! "xyz"
    = Some (mkSession "xyz" (1000 + hour) scenario_user []) /\
  body (res (run_layers [requireAuth; dashboard]
               (incoming (scenario_db (1000 + hour)) None 1000
                         (Some "bearer xyz"))).2)
    = Some (JObj [("error", JStr "Unauthorized: No Token provided")]).
Proof.
  split; [vm_compute; reflexivity|].
  refine (proj1 (proj2 (proj2 (scheme_check_is_case_sensitive
            (scenario_db (1000 + hour)) None 1000 "bearer xyz"
            "/dashboard" [requireAuth; dashboard] eq_refl _)))).
  right. exists "bearer ", "xyz". repeat split. discriminate.
Defined.

(** C10. When the header check fails (no [Authorization] header, or one
    that does not begin with "Bearer "), [findUnique] is not called: the
    list of queries is unchanged by the middleware and by both protected
    routes. A query is made only when the header begins with "Bearer ". *)
Theorem failed_header_check_skips_lookup (st : State) :
  authorization (req st) = None \/
  (exists h, authorization (req st) = Some h /\ startsWith h "Bearer " = false) ->
  db_queries (requireAuth st).2 = db_queries st /\
  db_queries (run_layers [requireAuth; profile] st).2 = db_queries st /\
  db_queries (run_layers [requireAuth; dashboard] st).2 = db_queries st /\
  forall st2 : State,
    db_queries (requireAuth st2).2 <> db_queries st2 ->
    exists h, authorization (req st2) = Some h /\ startsWith h "Bearer " = true.
Proof.
  intros H. apply no_bearer_true in H.
  pose proof (requireAuth_no_token st H) as E.
  pose proof (requireAuth_no_token (set_next_called false st) H) as E0.
  rewrite E, !(run_guarded_stops _ _ _ E0 eq_refl).
  repeat split. intros st2 Q.
  apply no_bearer_false. destruct (no_bearer (authorization (req st2))) eqn:B;
    [|reflexivity].
  rewrite (requireAuth_no_token st2 B) in Q. now elim Q.
Qed.

Lemma failed_header_check_skips_lookup_witness :
  db_queries (requireAuth (incoming (scenario_db (1000 + hour)) None 1000 None)).2 = [].
Proof.
  exact (proj1 (failed_header_check_skips_lookup
                  (incoming (scenario_db (1000 + hour)) None 1000 None)
                  (or_introl eq_refl))).
Defined.

(** * Further properties of the code *)

(** ** Helper lemmas *)

Lemma userRoutes_handler (method path : string) (layers : list (M unit)) :
  userRoutes method path = Some layers ->
  exists handler message,
    layers = [requireAuth; handler] /\
    forall s1, run_layers [handler] s1 =
      (Returned tt,
       replied (statusCode (res s1)) (with_user message (req_user (req s1)))
         (set_next_called false s1)).
Proof.
  intros R. destruct (userRoutes_inv _ _ _ R) as [[_ ->]|[_ ->]];
    eexists; eexists; (split; [reflexivity|]); intros s1;
    first [apply run_profile|apply run_dashboard].
Qed.

(** What [requireAuth] shows of its result depends on the state only
    through the header check, the token, the datastore's condition, the
    table's entry at the token, the clock and what was observable before. *)
Lemma requireAuth_observable (st st' : State) :
  no_bearer (authorization (req st)) = no_bearer (authorization (req st')) ->
  bearer_token (authorization (req st)) = bearer_token (authorization (req st')) ->
  db_fault st = db_fault st' ->
  (forall t, bearer_token (authorization (req st)) = Some t ->
             sessions st !! t = sessions st' !! t) ->
  clock st = clock st' ->
  observable st = observable st' ->
  observable (requireAuth st).2 = observable (requireAuth st').2.
Proof.
  intros B T F L C O. unfold observable in O.
  injection O as Ores Ouser Onext.
  destruct (requireAuth_result st) as (s1 & E1 & A1).
  destruct (requireAuth_result st') as (s2 & E2 & A2).
  rewrite E1, E2. unfold observable.
  inversion A1 as [N|t e B1 T1 F1|t B1 T1 F1 L1|t s B1 T1 F1 L1 X1|t s B1 T1 F1 L1 X1];
    inversion A2 as [N'|t' e' B2 T2 F2|t' B2 T2 F2 L2|t' s' B2 T2 F2 L2 X2|t' s' B2 T2 F2 L2 X2];
    subst s1 s2; simpl; try congruence;
    assert (t' = t) by congruence; subst t';
    pose proof (L t T1) as K; try congruence.
  - assert (s' = s) by congruence. subst s'. lia.
  - assert (s' = s) by congruence. subst s'. lia.
Qed.

(** What a guarded route shows of its result is a function of what its
    middleware shows. *)
Lemma run_guarded_observable (handler : M unit) (message : string) (st st' : State) :
  (forall s1, run_layers [handler] s1 =
     (Returned tt,
      replied (statusCode (res s1)) (with_user message (req_user (req s1)))
        (set_next_called false s1))) ->
  observable (requireAuth (set_next_called false st)).2 =
  observable (requireAuth (set_next_called false st')).2 ->
  observable (run_layers [requireAuth; handler] st).2 =
  observable (run_layers [requireAuth; handler] st').2.
Proof.
  intros K O. rewrite !run_guarded.
  destruct (requireAuth_result (set_next_called false st)) as (s1 & E1 & _).
  destruct (requireAuth_result (set_next_called false st')) as (s2 & E2 & _).
  rewrite E1, E2 in *. unfold observable in O. simpl in O.
  injection O as Ores Ouser Onext. rewrite <- Onext.
  destruct (next_called s1) eqn:N; [rewrite !K|]; unfold observable; simpl;
    rewrite ?Ores, ?Ouser, ?N, <- ?Onext; reflexivity.
Qed.

(** A guarded route leaves the table, the datastore's condition and the
    clock as they were. *)
Lemma run_guarded_frame (handler : M unit) (message : string) (st : State) :
  (forall s1, run_layers [handler] s1 =
     (Returned tt,
      replied (statusCode (res s1)) (with_user message (req_user (req s1)))
        (set_next_called false s1))) ->
  let st' := (run_layers [requireAuth; handler] st).2 in
  sessions st' = sessions st /\ db_fault st' = db_fault st /\ clock st' = clock st.
Proof.
  intros K. cbv zeta. rewrite run_guarded.
  destruct (requireAuth_result (set_next_called false st)) as (s1 & -> & A).
  destruct (next_called s1); [rewrite K|]; inversion A; repeat split.
Qed.

(** Where a new request was handed over, the header had the prefix, the
    lookup worked and found a session that has not expired. *)
Lemma requireAuth_passed_inv
    (db : gmap string Session) (fault : option JsError) (now : Z)
    (a : option string) :
  next_called (requireAuth (incoming db fault now a)).2 = true ->
  exists h t s,
    a = Some h /\ startsWith h "Bearer " = true /\ fault = None /\
    bearer_token (Some h) = Some t /\ db !! t = Some s /\ now <= expiresAt s.
Proof.
  destruct (requireAuth_result (incoming db fault now a)) as (s1 & -> & A).
  inversion A as [N|t e B T F|t B T F L|t s B T F L X|t s B T F L X];
    subst s1; simpl; try discriminate.
  intros _. apply no_bearer_false in B as (h & Ha & P). simpl in Ha. subst a.
  exists h, t, s. auto 10.
Qed.

(** ** The properties *)

(** X1. [requireAuth] and the two protected routes return normally from
    every state: whatever the header, the table and the condition of the
    datastore, no exception leaves them, the one [findUnique] raises
    included. *)
Theorem protected_routes_never_throw (st : State) :
  (requireAuth st).1 = Returned tt /\
  (run_layers [requireAuth; profile] st).1 = Returned tt /\
  (run_layers [requireAuth; dashboard] st).1 = Returned tt.
Proof.
  split; [destruct (requireAuth_result st) as (s1 & -> & _); reflexivity|].
  split; rewrite run_guarded;
    destruct (requireAuth_result (set_next_called false st)) as (s1 & -> & _);
    destruct (next_called s1); reflexivity.
Qed.

(** X2. [requireAuth] hands a request over to the next layer exactly when
    the header begins with "Bearer ", the lookup does not fail, the token
    read from the header has a session in the table, and that session does
    not expire before the current time. *)
Theorem requireAuth_passes_iff
    (db : gmap string Session) (fault : option JsError) (now : Z)
    (a : option string) :
  next_called (requireAuth (incoming db fault now a)).2 = true <->
  exists h t s,
    a = Some h /\ startsWith h "Bearer " = true /\ fault = None /\
    bearer_token (Some h) = Some t /\ db !! t = Some s /\ now <= expiresAt s.
Proof.
  set (st0 := incoming db fault now a). split.
  - apply requireAuth_passed_inv.
  - intros (h & t & s & -> & P & -> & T & L & X).
    rewrite (requireAuth_passes st0 (Some t) (startsWith_no_bearer h P) T t s
               eq_refl eq_refl L X).
    reflexivity.
Qed.

Lemma requireAuth_passes_iff_witness :
  next_called (requireAuth (incoming (scenario_db (1000 + hour)) None 1000
                              (Some "Bearer xyz"))).2 = true.
Proof.
  apply (proj2 (requireAuth_passes_iff (scenario_db (1000 + hour)) None 1000
                  (Some "Bearer xyz"))).
  exists "Bearer xyz", "xyz", (mkSession "xyz" (1000 + hour) scenario_user []).
  repeat split; vm_compute; (reflexivity || discriminate).
Defined.

(** X3. Every request to a protected route is answered, in one of three
    shapes: status 200 with a body of the fields [message] and [user] and
    an identity on the request; status 401 with a body of the one field
    [error]; status 500 with a body of the one field [error]. On 401 and
    500 no identity is attached. *)
Theorem protected_route_response_shape
    (db : gmap string Session) (fault : option JsError) (now : Z)
    (a : option string) (path : string) (layers : list (M unit)) :
  userRoutes "GET" path = Some layers ->
  let rt := (run_layers layers (incoming db fault now a)).2 in
  exists j,
    body (res rt) = Some j /\
    ((statusCode (res rt) = 200 /\ json_keys j = ["message"; "user"] /\
      is_Some (req_user (req rt))) \/
     (statusCode (res rt) = 401 /\ json_keys j = ["error"] /\
      req_user (req rt) = None) \/
     (statusCode (res rt) = 500 /\ json_keys j = ["error"] /\
      req_user (req rt) = None)).
Proof.
  intros R. destruct (userRoutes_handler _ _ _ R) as (handler & message & -> & K).
  cbv zeta. rewrite run_guarded.
  change (set_next_called false (incoming db fault now a))
    with (incoming db fault now a).
  destruct (requireAuth_result (incoming db fault now a)) as (s1 & -> & A).
  destruct (next_called s1) eqn:N; [rewrite K|]; inversion A; subst s1;
    simpl in N; try discriminate; simpl; eexists;
    (split; [reflexivity|]); simpl; eauto 10.
Qed.

Lemma protected_route_response_shape_witness :
  exists j,
    body (res (run_layers [requireAuth; profile]
                 (incoming (scenario_db 1000) None 2000 (Some "Bearer xyz"))).2)
      = Some j /\ json_keys j = ["error"].
Proof.
  destruct (protected_route_response_shape (scenario_db 1000) None 2000
              (Some "Bearer xyz") "/profile" [requireAuth; profile] eq_refl)
    as (j & B & H).
  exists j. split; [exact B|].
  vm_compute in B. injection B as <-. reflexivity.
Defined.

(** X4. Acceptance only shrinks with time: a request that is let through
    at some time is let through at every earlier time, with the same
    response, identity and outcome of the whole route; so a request
    refused at some time is refused at every later time. *)
Theorem acceptance_is_antitone_in_time
    (db : gmap string Session) (fault : option JsError) (now later : Z)
    (a : option string) (path : string) (layers : list (M unit)) :
  userRoutes "GET" path = Some layers ->
  now <= later ->
  next_called (requireAuth (incoming db fault later a)).2 = true ->
  next_called (requireAuth (incoming db fault now a)).2 = true /\
  observable (run_layers layers (incoming db fault now a)).2 =
  observable (run_layers layers (incoming db fault later a)).2.
Proof.
  intros R Le Acc.
  apply requireAuth_passed_inv in Acc as (h & t & s & -> & P & -> & T & L & X).
  pose proof (startsWith_no_bearer h P) as B.
  assert (E : forall n, n <= expiresAt s ->
            requireAuth (incoming db None n (Some h)) =
            (Returned tt, passed_on (identity_of s)
                            (queried (Some t) (incoming db None n (Some h))))).
  { intros n Hn.
    apply (requireAuth_passes (incoming db None n (Some h)) (Some t) B T t s); auto. }
  destruct (userRoutes_handler _ _ _ R) as (handler & message & -> & K).
  split; [rewrite (E now); [reflexivity|lia]|].
  apply (run_guarded_observable handler message _ _ K).
  change (set_next_called false (incoming db None now (Some h)))
    with (incoming db None now (Some h)).
  change (set_next_called false (incoming db None later (Some h)))
    with (incoming db None later (Some h)).
  rewrite (E now), (E later) by lia. reflexivity.
Qed.

Lemma acceptance_is_antitone_in_time_witness :
  next_called (requireAuth (incoming (scenario_db (1000 + hour)) None 1000
                              (Some "Bearer xyz"))).2 = true.
Proof.
  refine (proj1 (acceptance_is_antitone_in_time (scenario_db (1000 + hour)) None
                   1000 (1000 + hour) (Some "Bearer xyz")
                   "/dashboard" [requireAuth; dashboard] eq_refl _ _)).
  - vm_compute. discriminate.
  - vm_compute. reflexivity.
Defined.

(** X5. Repeating a request: when the same header arrives again at the
    state the first request left behind (same clock), the route gives the
    same response and identity as the first time, and the table is still
    the one the first request found. *)
Theorem repeated_request_same_response
    (st : State) (a : option string) (path : string) (layers : list (M unit)) :
  userRoutes "GET" path = Some layers ->
  let first := (run_layers layers (arrives a st)).2 in
  let second := (run_layers layers (arrives a first)).2 in
  observable second = observable first /\
  sessions second = sessions st.
Proof.
  intros R. destruct (userRoutes_handler _ _ _ R) as (handler & message & -> & K).
  cbv zeta.
  destruct (run_guarded_frame handler message (arrives a st) K) as (S1 & F1 & C1).
  set (first := (run_layers [requireAuth; handler] (arrives a st)).2) in *.
  destruct (run_guarded_frame handler message (arrives a first) K) as (S2 & _ & _).
  split; [|rewrite S2; simpl; rewrite S1; reflexivity].
  subst first. apply (run_guarded_observable handler message _ _ K).
  apply requireAuth_observable; simpl in *; try reflexivity; try assumption.
  intros t _. now rewrite S1.
Qed.

Lemma repeated_request_same_response_witness :
  let st := incoming (scenario_db (1000 + hour)) None 1000 None in
  let first := (run_layers [requireAuth; dashboard] (arrives (Some "Bearer xyz") st)).2 in
  res (run_layers [requireAuth; dashboard] (arrives (Some "Bearer xyz") first)).2
    = res first.
Proof.
  intros st first.
  pose proof (proj1 (repeated_request_same_response st (Some "Bearer xyz")
                       "/dashboard" [requireAuth; dashboard] eq_refl)) as O.
  exact (f_equal (fun o : Response * option Identity * bool => o.1.1) O).
Defined.

(** X6. Whatever follows the token is ignored: for a token without a
    space, the header "Bearer <token> <anything>" gets the same response,
    identity and outcome as "Bearer <token>", from the middleware and from
    the whole route. *)
Theorem text_after_token_is_ignored
    (db : gmap string Session) (fault : option JsError) (now : Z)
    (t junk : string) (path : string) (layers : list (M unit)) :
  userRoutes "GET" path = Some layers ->
  includes " " t = false ->
  let long := incoming db fault now (Some ("Bearer " +:+ t +:+ " " +:+ junk)) in
  let short := incoming db fault now (Some ("Bearer " +:+ t)) in
  observable (requireAuth long).2 = observable (requireAuth short).2 /\
  observable (run_layers layers long).2 = observable (run_layers layers short).2.
Proof.
  intros R I long short.
  assert (O : observable (requireAuth long).2 = observable (requireAuth short).2).
  { assert (T1 : bearer_token (authorization (req long)) = Some t).
    { change (bearer_token (Some ("Bearer " +:+ (t +:+ String " " junk))) = Some t).
      now rewrite bearer_token_Bearer, until_sep_append. }
    assert (T2 : bearer_token (authorization (req short)) = Some t).
    { change (bearer_token (Some ("Bearer " +:+ t)) = Some t).
      rewrite bearer_token_Bearer. f_equal. now apply until_sep_whole. }
    assert (B1 : no_bearer (authorization (req long)) = false)
      by apply no_bearer_Bearer.
    assert (B2 : no_bearer (authorization (req short)) = false)
      by apply no_bearer_Bearer.
    apply requireAuth_observable; try reflexivity; congruence. }
  split; [exact O|].
  destruct (userRoutes_handler _ _ _ R) as (handler & message & -> & K).
  apply (run_guarded_observable handler message _ _ K). exact O.
Qed.

Lemma text_after_token_is_ignored_witness :
  res (run_layers [requireAuth; dashboard]
         (incoming (scenario_db (1000 + hour)) None 1000
                   (Some "Bearer xyz and more"))).2 =
  res (run_layers [requireAuth; dashboard]
         (incoming (scenario_db (1000 + hour)) None 1000 (Some "Bearer xyz"))).2.
Proof.
  exact (f_equal (fun o : Response * option Identity * bool => o.1.1)
           (proj2 (text_after_token_is_ignored (scenario_db (1000 + hour)) None 1000
                     "xyz" "and more" "/dashboard" [requireAuth; dashboard]
                     eq_refl eq_refl))).
Defined.

(** X7. An empty token is looked up, not reported as missing: when
    nothing, or a space, follows "Bearer ", the header passes the check,
    the table is queried with the empty string and, no session having the
    empty token, the answer is 401 "Unauthorized: Invalid or expired
    token" rather than "No Token provided". *)
Theorem empty_token_is_looked_up
    (db : gmap string Session) (now : Z) (rest : string)
    (path : string) (layers : list (M unit)) :
  userRoutes "GET" path = Some layers ->
  rest = "" \/ startsWith rest " " = true ->
  db !! "" = None ->
  let rt := (run_layers layers (incoming db None now (Some ("Bearer " +:+ rest)))).2 in
  db_queries rt = [Some ""] /\
  statusCode (res rt) = 401 /\
  body (res rt) = Some (JObj [("error", JStr "Unauthorized: Invalid or expired token")]).
Proof.
  intros R H L.
  set (st0 := incoming db None now (Some ("Bearer " +:+ rest))).
  assert (T : bearer_token (authorization (req st0)) = Some "").
  { change (bearer_token (Some ("Bearer " +:+ rest)) = Some "").
    rewrite bearer_token_Bearer. f_equal.
    destruct H as [->|H]; [reflexivity|].
    destruct rest as [|c rest]; [reflexivity|].
    change (startsWith (String c rest) " ")
      with (if Ascii.eqb " " c then true else false) in H.
    destruct (Ascii.eqb_spec " " c) as [<-|]; [reflexivity|discriminate]. }
  pose proof (requireAuth_not_found st0 (Some "") (no_bearer_Bearer rest) T ""
                eq_refl eq_refl L) as E.
  destruct (userRoutes_handler _ _ _ R) as (handler & message & -> & K).
  cbv zeta. fold st0. rewrite (run_guarded_stops handler st0 _ E eq_refl).
  repeat split.
Qed.

Lemma empty_token_is_looked_up_witness :
  db_queries (run_layers [requireAuth; profile]
                (incoming (scenario_db (1000 + hour)) None 1000
                          (Some "Bearer  xyz"))).2 = [Some ""].
Proof.
  refine (proj1 (empty_token_is_looked_up (scenario_db (1000 + hour)) 1000 " xyz"
                   "/profile" [requireAuth; profile] eq_refl _ _)).
  - right. reflexivity.
  - vm_compute. reflexivity.
Defined.

(** X8. A session put into the table under a token without a space, and
    not expiring before the current time, gives access at once: the
    request "Bearer <token>" is answered 200 with the identity of that
    session's user, whatever the table held under that token before. *)
Theorem inserted_session_is_accepted
    (db : gmap string Session) (now : Z) (t : string) (s : Session)
    (path : string) (layers : list (M unit)) :
  userRoutes "GET" path = Some layers ->
  includes " " t = false ->
  now <= expiresAt s ->
  let rt := (run_layers layers
               (incoming (<[t := s]> db) None now (Some ("Bearer " +:+ t)))).2 in
  statusCode (res rt) = 200 /\
  req_user (req rt) = Some (identity_of s) /\
  exists message, body (res rt) = Some (with_user message (Some (identity_of s))).
Proof.
  intros R I X.
  set (st0 := incoming (<[t := s]> db) None now (Some ("Bearer " +:+ t))).
  assert (T : bearer_token (authorization (req st0)) = Some t).
  { change (bearer_token (Some ("Bearer " +:+ t)) = Some t).
    rewrite bearer_token_Bearer. f_equal. now apply until_sep_whole. }
  assert (L : sessions st0 !! t = Some s) by apply lookup_insert_eq.
  pose proof (requireAuth_passes st0 (Some t) (no_bearer_Bearer t) T t s
                eq_refl eq_refl L X) as E.
  destruct (userRoutes_handler _ _ _ R) as (handler & message & -> & K).
  cbv zeta. fold st0. rewrite (run_guarded_continues handler st0 _ E eq_refl), K.
  split; [reflexivity|]. split; [reflexivity|]. exists message. reflexivity.
Qed.

Lemma inserted_session_is_accepted_witness :
  statusCode (res (run_layers [requireAuth; profile]
                     (incoming (<["new" := mkSession "new" 5000 scenario_user []]>
                                  (scenario_db 1000))
                               None 2000 (Some "Bearer new"))).2) = 200.
Proof.
  refine (proj1 (inserted_session_is_accepted (scenario_db 1000) 2000 "new"
                   (mkSession "new" 5000 scenario_user [])
                   "/profile" [requireAuth; profile] eq_refl eq_refl _)).
  vm_compute. discriminate.
Defined.

(** X9. A session removed from the table gives no access any more: after
    the token's entry is deleted, the request "Bearer <token>" is answered
    401 "Unauthorized: Invalid or expired token" and no identity is
    attached, whatever the expiration of the removed session was. *)
Theorem deleted_session_is_rejected
    (db : gmap string Session) (now : Z) (t : string)
    (path : string) (layers : list (M unit)) :
  userRoutes "GET" path = Some layers ->
  includes " " t = false ->
  let rt := (run_layers layers
               (incoming (delete t db) None now (Some ("Bearer " +:+ t)))).2 in
  statusCode (res rt) = 401 /\
  body (res rt) = Some (JObj [("error", JStr "Unauthorized: Invalid or expired token")]) /\
  req_user (req rt) = None.
Proof.
  intros R I.
  set (st0 := incoming (delete t db) None now (Some ("Bearer " +:+ t))).
  assert (T : bearer_token (authorization (req st0)) = Some t).
  { change (bearer_token (Some ("Bearer " +:+ t)) = Some t).
    rewrite bearer_token_Bearer. f_equal. now apply until_sep_whole. }
  assert (L : sessions st0 !! t = None) by apply lookup_delete_eq.
  pose proof (requireAuth_not_found st0 (Some t) (no_bearer_Bearer t) T t
                eq_refl eq_refl L) as E.
  destruct (userRoutes_handler _ _ _ R) as (handler & message & -> & K).
  cbv zeta. fold st0. rewrite (run_guarded_stops handler st0 _ E eq_refl).
  repeat split.
Qed.

Lemma deleted_session_is_rejected_witness :
  statusCode (res (run_layers [requireAuth; dashboard]
                     (incoming (delete "xyz" (scenario_db (1000 + hour)))
                               None 1000 (Some "Bearer xyz"))).2) = 401.
Proof.
  exact (proj1 (deleted_session_is_rejected (scenario_db (1000 + hour)) 1000 "xyz"
                  "/dashboard" [requireAuth; dashboard] eq_refl eq_refl)).
Defined.

(** X10. While the datastore is failing, every request whose header begins
    with "Bearer " gets the same 500 response, whatever the token, the
    table, the time, the route and the error: a valid token cannot be told
    from an invalid one, and no identity is attached. *)
Theorem failing_datastore_answers_alike
    (db1 db2 : gmap string Session) (now1 now2 : Z) (h1 h2 : string)
    (e1 e2 : JsError) (path1 path2 : string) (layers1 layers2 : list (M unit)) :
  userRoutes "GET" path1 = Some layers1 ->
  userRoutes "GET" path2 = Some layers2 ->
  startsWith h1 "Bearer " = true ->
  startsWith h2 "Bearer " = true ->
  let rt1 := (run_layers layers1 (incoming db1 (Some e1) now1 (Some h1))).2 in
  let rt2 := (run_layers layers2 (incoming db2 (Some e2) now2 (Some h2))).2 in
  res rt1 = res rt2 /\
  res rt1 = mkResponse 500 (Some (JObj [("error", JStr "Internal server error during auth")])) /\
  req_user (req rt1) = None /\ req_user (req rt2) = None.
Proof.
  intros R1 R2 P1 P2.
  assert (E : forall db e now h handler, startsWith h "Bearer " = true ->
            exists st', run_layers [requireAuth; handler]
                          (incoming db (Some e) now (Some h)) = (Returned tt, st') /\
                        res st' = mkResponse 500 (Some auth_failure_body) /\
                        req_user (req st') = None).
  { intros db e now h handler P.
    pose proof (startsWith_no_bearer h P) as B.
    destruct (bearer_token_defined _ B) as [t T].
    eexists. split.
    { eapply run_guarded_stops;
        [apply (requireAuth_lookup_throws (incoming db (Some e) now (Some h))
                  (Some t) B T t e eq_refl eq_refl)|reflexivity]. }
    split; reflexivity. }
  destruct (userRoutes_handler _ _ _ R1) as (g1 & m1 & -> & _).
  destruct (userRoutes_handler _ _ _ R2) as (g2 & m2 & -> & _).
  destruct (E db1 e1 now1 h1 g1 P1) as (s1 & -> & A1 & U1).
  destruct (E db2 e2 now2 h2 g2 P2) as (s2 & -> & A2 & U2).
  simpl. rewrite A1, A2. auto.
Qed.

Lemma failing_datastore_answers_alike_witness :
  res (run_layers [requireAuth; dashboard]
         (incoming (scenario_db (1000 + hour)) (Some (mkError "E" "down")) 1000
                   (Some "Bearer xyz"))).2 =
  res (run_layers [requireAuth; profile]
         (incoming ∅ (Some (mkError "F" "timeout")) 7 (Some "Bearer nobody"))).2.
Proof.
  exact (proj1 (failing_datastore_answers_alike (scenario_db (1000 + hour)) ∅ 1000 7
                  "Bearer xyz" "Bearer nobody" (mkError "E" "down")
                  (mkError "F" "timeout") "/dashboard" "/profile"
                  [requireAuth; dashboard] [requireAuth; profile]
                  eq_refl eq_refl eq_refl eq_refl)).
Defined.
